(** * POAV analysis of scikit-nano: [sknano/core/atoms/_poav_atom.py]

    A shallow embedding of the classes [POAV], [POAV1], [POAV2], [POAVR],
    [POAVAtomMixin] and [POAVAtom], and the properties of them that the
    specification states.

    Numbers.  The source computes with numpy [float64] values.  They are
    idealised here as real numbers (no rounding, no overflow) extended by the
    three special values that numpy's arithmetic returns, with a warning and
    without raising, when a quotient has no finite value: [PInf], [NInf] and
    [NaN].  Zero carries no sign: a nonzero number divided by zero is the
    infinity that has the sign of the numerator.

    Rounding.  What this idealisation proves of the program is what does not
    depend on rounding: which value an expression is, what is raised, what a
    division by zero returns.  An equation between two different float64
    computations can hold over the reals and fail in the program; for the
    scalar expressions of the source where this happens, module [Float64]
    holds the same expressions over binary64 numbers, with IEEE 754 rounding,
    and they are evaluated there. *)

From Stdlib Require Import PrimFloat.
From Stdlib Require Import Reals Lra String List.
From stdpp Require Import base gmap strings.
Import ListNotations.

Local Open Scope R_scope.
Local Open Scope string_scope.

(** ** Numbers *)

Inductive num : Type :=
  | Fin (r : R)
  | PInf
  | NInf
  | NaN.

Declare Scope num_scope.
Delimit Scope num_scope with num.
Bind Scope num_scope with num.

(** The sign of a real, as the three-way comparison with 0. *)
Definition Rsign (r : R) : comparison :=
  match total_order_T r 0 with
  | inleft (left _) => Lt
  | inleft (right _) => Eq
  | inright _ => Gt
  end.

Definition nneg (x : num) : num :=
  match x with
  | Fin r => Fin (- r)
  | PInf => NInf
  | NInf => PInf
  | NaN => NaN
  end.

Definition nadd (x y : num) : num :=
  match x, y with
  | NaN, _ | _, NaN => NaN
  | Fin a, Fin b => Fin (a + b)
  | PInf, NInf | NInf, PInf => NaN
  | PInf, _ | _, PInf => PInf
  | NInf, _ | _, NInf => NInf
  end.

Definition nsub (x y : num) : num := nadd x (nneg y).

(** An infinity of sign [pos] scaled by a real of sign [s]. *)
Definition inf_signed (pos : bool) (s : comparison) : num :=
  match s with
  | Eq => NaN
  | Gt => if pos then PInf else NInf
  | Lt => if pos then NInf else PInf
  end.

Definition nmul (x y : num) : num :=
  match x, y with
  | NaN, _ | _, NaN => NaN
  | Fin a, Fin b => Fin (a * b)
  | PInf, Fin b | Fin b, PInf => inf_signed true (Rsign b)
  | NInf, Fin b | Fin b, NInf => inf_signed false (Rsign b)
  | PInf, PInf | NInf, NInf => PInf
  | PInf, NInf | NInf, PInf => NInf
  end.

(** numpy's true division: [x / 0] is an infinity for [x <> 0] and [nan]
    for [x = 0]; a finite number divided by an infinity is 0. *)
Definition ndiv (x y : num) : num :=
  match x, y with
  | NaN, _ | _, NaN => NaN
  | Fin a, Fin b =>
      if Req_dec_T b 0
      then match Rsign a with Eq => NaN | Gt => PInf | Lt => NInf end
      else Fin (a / b)
  | Fin _, PInf | Fin _, NInf => Fin 0
  | PInf, Fin b => match Rsign b with Lt => NInf | _ => PInf end
  | NInf, Fin b => match Rsign b with Lt => PInf | _ => NInf end
  | PInf, PInf | PInf, NInf | NInf, PInf | NInf, NInf => NaN
  end.

Definition nsqrt (x : num) : num :=
  match x with
  | Fin a => if Rlt_dec a 0 then NaN else Fin (sqrt a)
  | PInf => PInf
  | NInf | NaN => NaN
  end.

(** [np.cos] *)
Definition ncos (x : num) : num :=
  match x with
  | Fin a => Fin (cos a)
  | _ => NaN
  end.

(** [np.degrees]: multiplication by 180/pi. *)
Definition degrees (x : num) : num := nmul x (Fin (180 / PI)).


Infix "+" := nadd : num_scope.
Infix "-" := nsub : num_scope.
Infix "*" := nmul : num_scope.
Infix "/" := ndiv : num_scope.
Notation "- x" := (nneg x) : num_scope.

(** Python's integer literals, promoted to floats by the arithmetic. *)
Definition int (z : Z) : num := Fin (IZR z).

(** [functools.reduce(operator.mul, xs, 1)] *)
Definition reduce_mul (xs : list num) : num :=
  fold_left nmul xs (int 1).

(** The builtin [sum(xs)], which starts from 0. *)
Definition py_sum (xs : list num) : num :=
  fold_left nadd xs (int 0).

(** [np.mean(xs)]: the sum over the number of elements (nan for none). *)
Definition np_mean (xs : list num) : num :=
  (fold_left nadd xs (int 0) / Fin (INR (length xs)))%num.

(** ** Vectors *)

(** Modelled from the spec: the class [Vector] of [sknano.core.math] (the
    spec's Vector3: a 3-component real vector with dot, cross, scalar triple
    product, magnitude and unit vector) is not part of the analysed files. *)
Record Vector : Type := vec3 { vx : num; vy : num; vz : num }.

Definition vadd (a b : Vector) : Vector :=
  vec3 (vx a + vx b) (vy a + vy b) (vz a + vz b).

(** scalar * vector *)
Definition vscale (c : num) (a : Vector) : Vector :=
  vec3 (c * vx a) (c * vy a) (c * vz a).

(** vector / scalar *)
Definition vdiv (a : Vector) (c : num) : Vector :=
  vec3 (vx a / c) (vy a / c) (vz a / c).

(** Modelled from the spec: [vec.dot] of the missing vector module. *)
Definition dot (a b : Vector) : num :=
  (vx a * vx b + vy a * vy b + vz a * vz b)%num.

(** Modelled from the spec: [vec.cross] of the missing vector module. *)
Definition cross (a b : Vector) : Vector :=
  vec3 (vy a * vz b - vz a * vy b)
       (vz a * vx b - vx a * vz b)
       (vx a * vy b - vy a * vx b).

(** Modelled from the spec: [vec.scalar_triple_product] of the missing vector
    module, u . (v x w). *)
Definition scalar_triple_product (u v w : Vector) : num :=
  dot u (cross v w).

(** Modelled from the spec: [Vector.magnitude] (and its alias [length]). *)
Definition magnitude (a : Vector) : num := nsqrt (dot a a).

(** Modelled from the spec: [Vector.unit_vector], the vector over its
    magnitude. *)
Definition unit_vector (a : Vector) : Vector := vdiv a (magnitude a).

(** ** Exceptions and the state-and-error monad

    The exceptions the analysed code can end with, by Python class.  The only
    [raise] statements of the file raise [TypeError]; subscripting [None] and
    numpy functions applied to [None] raise [TypeError] too, a list index out
    of range raises [IndexError], two arrays whose shapes cannot be broadcast
    raise [ValueError].  The file defines no exception class of its own. *)

Inductive exn : Type :=
  | TypeError
  | IndexError
  | ValueError.

Definition exn_name (e : exn) : string :=
  match e with
  | TypeError => "TypeError"
  | IndexError => "IndexError"
  | ValueError => "ValueError"
  end.

Inductive result (A : Type) : Type :=
  | Ok (a : A)
  | Raise (e : exn).
Arguments Ok {A} a.
Arguments Raise {A} e.

(** A method call on an object whose attributes are [S]: it returns or raises,
    and leaves the object in a new state. *)
Definition M (S A : Type) : Type := S -> result A * S.

Definition ret {S A} (a : A) : M S A := fun s => (Ok a, s).

Definition bind {S A B} (c : M S A) (k : A -> M S B) : M S B :=
  fun s =>
    match c s with
    | (Ok a, s') => k a s'
    | (Raise e, s') => (Raise e, s')
    end.

Definition raise {S A} (e : exn) : M S A := fun s => (Raise e, s).

(** Reading an attribute or a property computed from the attributes. *)
Definition gets {S A} (f : S -> A) : M S A := fun s => (Ok (f s), s).

(** Assigning attributes. *)
Definition modify {S} (f : S -> S) : M S unit := fun s => (Ok tt, f s).

(** A result computed without the object. *)
Definition lift {S A} (r : result A) : M S A := fun s => (r, s).

(** A method of the base class run on an instance of a sub-class: [proj]
    reads the base attributes, [upd] writes them back. *)
Definition zoom {S S' A} (proj : S' -> S) (upd : S -> S' -> S')
    (c : M S A) : M S' A :=
  fun s' => let (r, s) := c (proj s') in (r, upd s s').

Declare Scope monad_scope.
Delimit Scope monad_scope with monad.
Notation "x <- c ;; k" := (bind c (fun x => k))
  (at level 100, c at next level, right associativity) : monad_scope.
Notation "c ;;; k" := (bind c (fun _ => k))
  (at level 100, right associativity) : monad_scope.

(** ** Python values the setters can receive *)

Inductive pyval : Type :=
  | PyNone
  | PyFloat (x : num)
  | PyList (xs : list num)
  | PyTuple (xs : list num)
  | PyArray (xs : list num).

(** [isinstance(value, list)] *)
Definition isinstance_list (value : pyval) : bool :=
  match value with PyList _ => true | _ => false end.

(** ** Bonds *)

(** Modelled from the spec: the class [Bond] (a vector and its length) is not
    part of the analysed files. *)
Record Bond : Type := mkBond { vector : Vector }.

(** Modelled from the spec: the class [Bonds] is not part of the analysed
    files.  It is the spec's BondTriple: exactly three bonds in a fixed order,
    with the three pairwise bond angles [angles] (a12, a13, a23, in radians)
    and the bond pair of each angle, [bond_angle_pairs]. *)
Record Bonds : Type := mkBonds {
  bond0 : Bond;
  bond1 : Bond;
  bond2 : Bond;
  a12 : num;
  a13 : num;
  a23 : num
}.

(** Iterating over the bonds. *)
Definition bonds_list (bs : Bonds) : list Bond := [bond0 bs; bond1 bs; bond2 bs].

Definition angles (bs : Bonds) : list num := [a12 bs; a13 bs; a23 bs].

(** Modelled from the spec: the pair of bonds (by position) of each angle. *)
Definition bond_angle_pairs (bs : Bonds) : list (nat * nat) :=
  [(0, 1); (0, 2); (1, 2)]%nat.

(** [np.in1d(self.bonds, pair, invert=True)]: for each bond, whether it is
    not a member of [pair_].  Bonds are identified by their position. *)
Definition in1d_invert (bs : Bonds) (pair_ : nat * nat) : list bool :=
  map (fun i => negb (Nat.eqb i (fst pair_) || Nat.eqb i (snd pair_)))
      (seq 0 (length (bonds_list bs))).

(** Indexing an array with a boolean mask. *)
Fixpoint mask_select {A} (xs : list A) (mask : list bool) : list A :=
  match xs, mask with
  | x :: xs', b :: mask' =>
      if b then x :: mask_select xs' mask' else mask_select xs' mask'
  | _, _ => []
  end.

(** [cosa * v] for an array [cosa] and a vector [v], under numpy's
    broadcasting: one element scales the vector, three multiply it
    component by component, any other shape is an error. *)
Definition broadcast_mul (cosa : list num) (v : Vector) : result Vector :=
  match cosa with
  | [c] => Ok (vscale c v)
  | [c1; c2; c3] => Ok (vec3 (c1 * vx v) (c2 * vy v) (c3 * vz v))
  | _ => Raise ValueError
  end.

(** ** class POAV *)

Record POAV : Type := mkPOAV {
  bonds : Bonds;
  b1 : Vector;
  b2 : Vector;
  b3 : Vector;
  _v1 : Vector;
  _v2 : Vector;
  _v3 : Vector;
  _T : num;
  _pyramidalization_angles : option (list num);
  _sigma_pi_angles : option (list num);
  _misalignment_angles : option (list num)
}.

Module POAV_.

Definition V1 (self : POAV) : Vector := unit_vector (b1 self).
Definition V2 (self : POAV) : Vector := unit_vector (b2 self).
Definition V3 (self : POAV) : Vector := unit_vector (b3 self).

Definition R1 (self : POAV) : num := magnitude (b1 self).
Definition R2 (self : POAV) : num := magnitude (b2 self).
Definition R3 (self : POAV) : num := magnitude (b3 self).

(** [POAV.__init__] *)
Definition init (sigma_bonds : Bonds) : POAV :=
  let b1 := vector (bond0 sigma_bonds) in
  let b2 := vector (bond1 sigma_bonds) in
  let b3 := vector (bond2 sigma_bonds) in
  {| bonds := sigma_bonds;
     b1 := b1; b2 := b2; b3 := b3;
     _v1 := b1; _v2 := b2; _v3 := b3;
     _T := (scalar_triple_product
              (unit_vector b1) (unit_vector b2) (unit_vector b3) / int 6)%num;
     _pyramidalization_angles := None;
     _sigma_pi_angles := None;
     _misalignment_angles := None |}.

Definition v1 (self : POAV) : Vector := _v1 self.
Definition v2 (self : POAV) : Vector := _v2 self.
Definition v3 (self : POAV) : Vector := _v3 self.

Definition t (self : POAV) : num :=
  scalar_triple_product (v1 self) (v2 self) (v3 self).

Definition reciprocal_v1 (self : POAV) : Vector := cross (v2 self) (v3 self).
Definition reciprocal_v2 (self : POAV) : Vector := cross (v3 self) (v1 self).
Definition reciprocal_v3 (self : POAV) : Vector := cross (v1 self) (v2 self).

Definition vpi (self : POAV) : Vector :=
  vdiv (vadd (vadd (reciprocal_v1 self) (reciprocal_v2 self))
             (reciprocal_v3 self))
       (t self).


Definition T (self : POAV) : num := _T self.

Definition A (self : POAV) : num := magnitude (vpi self).

Definition H (self : POAV) : num := (int 3 * T self / A self)%num.

Definition sigma_pi_angles (self : POAV) := _sigma_pi_angles self.
Definition pyramidalization_angles (self : POAV) :=
  _pyramidalization_angles self.
Definition misalignment_angles (self : POAV) := _misalignment_angles self.

Definition with_sigma_pi_angles (value : option (list num)) (self : POAV)
    : POAV :=
  mkPOAV (bonds self) (b1 self) (b2 self) (b3 self)
         (_v1 self) (_v2 self) (_v3 self) (_T self)
         (_pyramidalization_angles self) value (_misalignment_angles self).

Definition with_pyramidalization_angles (value : option (list num))
    (self : POAV) : POAV :=
  mkPOAV (bonds self) (b1 self) (b2 self) (b3 self)
         (_v1 self) (_v2 self) (_v3 self) (_T self)
         value (_sigma_pi_angles self) (_misalignment_angles self).

Definition with_misalignment_angles (value : option (list num)) (self : POAV)
    : POAV :=
  mkPOAV (bonds self) (b1 self) (b2 self) (b3 self)
         (_v1 self) (_v2 self) (_v3 self) (_T self)
         (_pyramidalization_angles self) (_sigma_pi_angles self) value.

(** The three setters: anything that is not a [list] is refused, a list is
    stored as it is. *)
Definition set_sigma_pi_angles (value : pyval) : M POAV unit :=
  match value with
  | PyList xs => modify (with_sigma_pi_angles (Some xs))
  | _ => raise TypeError
  end.

Definition set_pyramidalization_angles (value : pyval) : M POAV unit :=
  match value with
  | PyList xs => modify (with_pyramidalization_angles (Some xs))
  | _ => raise TypeError
  end.

Definition set_misalignment_angles (value : pyval) : M POAV unit :=
  match value with
  | PyList xs => modify (with_misalignment_angles (Some xs))
  | _ => raise TypeError
  end.

(** [arr[i]] for an attribute that is [None] or a sequence. *)
Definition getitem (arr : option (list num)) (i : nat) : result num :=
  match arr with
  | None => Raise TypeError
  | Some xs =>
      match xs !! i with
      | Some x => Ok x
      | None => Raise IndexError
      end
  end.

(** [np.degrees(arr)] for an attribute that is [None] or a sequence. *)
Definition np_degrees (arr : option (list num))
    : result (option (list num)) :=
  match arr with
  | None => Raise TypeError
  | Some xs => Ok (Some (map degrees xs))
  end.

(** [POAV.todict] *)
Definition todict (rad2deg : bool) : M POAV (gmap string num) :=
  (sigma0 <- gets sigma_pi_angles ;;
   pyram0 <- gets pyramidalization_angles ;;
   misal0 <- gets misalignment_angles ;;
   sigma <- (if rad2deg then lift (np_degrees sigma0) else ret sigma0) ;;
   pyram <- (if rad2deg then lift (np_degrees pyram0) else ret pyram0) ;;
   misal <- (if rad2deg then lift (np_degrees misal0) else ret misal0) ;;
   bond1 <- gets (fun self => magnitude (b1 self)) ;;
   bond2 <- gets (fun self => magnitude (b2 self)) ;;
   bond3 <- gets (fun self => magnitude (b3 self)) ;;
   sigma_pi_angle1 <- lift (getitem sigma 0) ;;
   sigma_pi_angle2 <- lift (getitem sigma 1) ;;
   sigma_pi_angle3 <- lift (getitem sigma 2) ;;
   pyramidalization_angle1 <- lift (getitem pyram 0) ;;
   pyramidalization_angle2 <- lift (getitem pyram 1) ;;
   pyramidalization_angle3 <- lift (getitem pyram 2) ;;
   misalignment_angle1 <- lift (getitem misal 0) ;;
   misalignment_angle2 <- lift (getitem misal 1) ;;
   misalignment_angle3 <- lift (getitem misal 2) ;;
   T <- gets T ;;
   H <- gets H ;;
   A <- gets A ;;
   ret (list_to_map
          [("bond1", bond1); ("bond2", bond2); ("bond3", bond3);
           ("sigma_pi_angle1", sigma_pi_angle1);
           ("sigma_pi_angle2", sigma_pi_angle2);
           ("sigma_pi_angle3", sigma_pi_angle3);
           ("pyramidalization_angle1", pyramidalization_angle1);
           ("pyramidalization_angle2", pyramidalization_angle2);
           ("pyramidalization_angle3", pyramidalization_angle3);
           ("misalignment_angle1", misalignment_angle1);
           ("misalignment_angle2", misalignment_angle2);
           ("misalignment_angle3", misalignment_angle3);
           ("T", T); ("H", H); ("A", A)]))%monad.

End POAV_.

(** [d.update(other)]: the entries of [other] replace those of [d]. *)
Definition dict_update (d other : gmap string num) : gmap string num :=
  other ∪ d.

(** ** class POAV1 *)

Record POAV1 : Type := mkPOAV1 { POAV1_super : POAV }.

Module POAV1_.

(** [POAV1.__init__] *)
Definition init (sigma_bonds : Bonds) : POAV1 :=
  let self := POAV_.init sigma_bonds in
  mkPOAV1
    (mkPOAV (bonds self) (b1 self) (b2 self) (b3 self)
            (POAV_.V1 self) (POAV_.V2 self) (POAV_.V3 self) (_T self)
            (_pyramidalization_angles self) (_sigma_pi_angles self)
            (_misalignment_angles self)).

(** Methods inherited from [POAV]. *)
Definition super {A} (c : M POAV A) : M POAV1 A :=
  zoom POAV1_super (fun s _ => mkPOAV1 s) c.

(** [np.mean] of an attribute that is [None] or a list. *)
Definition mean_of (arr : option (list num)) : result num :=
  match arr with
  | None => Raise TypeError
  | Some xs => Ok (np_mean xs)
  end.

Definition m : M POAV1 num :=
  (sigma <- gets (fun self => POAV_.sigma_pi_angles (POAV1_super self)) ;;
   mean <- lift (mean_of sigma) ;;
   let cos2sigmapi := (ncos mean * ncos mean)%num in
   ret (int 2 * cos2sigmapi / (int 1 - int 3 * cos2sigmapi))%num)%monad.

Definition n : M POAV1 num :=
  (m_ <- m ;; ret (int 3 * m_ + int 2)%num)%monad.

(** [POAV1.todict] *)
Definition todict (rad2deg : bool) : M POAV1 (gmap string num) :=
  (super_dict <- super (POAV_.todict rad2deg) ;;
   m_ <- m ;;
   n_ <- n ;;
   ret (dict_update super_dict (list_to_map [("m", m_); ("n", n_)])))%monad.

End POAV1_.

(** ** class POAV2 *)

Record POAV2 : Type := mkPOAV2 {
  POAV2_super : POAV;
  cosa12 : num;
  cosa13 : num;
  cosa23 : num
}.

Definition rbind {A B} (r : result A) (k : A -> result B) : result B :=
  match r with
  | Ok a => k a
  | Raise e => Raise e
  end.

(** A loop that appends one computed element per item and stops at the first
    exception. *)
Fixpoint for_each {A B} (body : A -> result B) (items : list A)
    : result (list B) :=
  match items with
  | [] => Ok []
  | x :: items' =>
      rbind (body x) (fun y =>
      rbind (for_each body items') (fun ys => Ok (y :: ys)))
  end.

(** [xs[i]] on a list the code built itself. *)
Definition list_item {A} (xs : list A) (i : nat) : result A :=
  match xs !! i with
  | Some x => Ok x
  | None => Raise IndexError
  end.

Module POAV2_.

(** The loop of [POAV2.__init__]: each bond's unit vector times the cosine of
    the bond angles selected by the mask of the bonds outside its pair. *)
Definition vi_of (self : POAV) : result (list Vector) :=
  let bond_angles := angles (bonds self) in
  for_each
    (fun '(bond, pair_) =>
       let cosa :=
         map ncos (mask_select bond_angles (in1d_invert (bonds self) pair_)) in
       broadcast_mul cosa (unit_vector (vector bond)))
    (combine (bonds_list (bonds self)) (bond_angle_pairs (bonds self))).

(** [POAV2.__init__] *)
Definition init (sigma_bonds : Bonds) : result POAV2 :=
  let self := POAV_.init sigma_bonds in
  let bond_angles := angles (bonds self) in
  rbind (vi_of self) (fun vi =>
  rbind (list_item vi 0) (fun vi0 =>
  rbind (list_item vi 1) (fun vi1 =>
  rbind (list_item vi 2) (fun vi2 =>
  rbind (list_item bond_angles 0) (fun angle0 =>
  rbind (list_item bond_angles 1) (fun angle1 =>
  rbind (list_item bond_angles 2) (fun angle2 =>
  Ok (mkPOAV2
        (mkPOAV (bonds self) (b1 self) (b2 self) (b3 self)
                vi0 vi1 vi2
                (- reduce_mul (map ncos bond_angles) * POAV_.T self)%num
                (_pyramidalization_angles self) (_sigma_pi_angles self)
                (_misalignment_angles self))
        (ncos angle0) (ncos angle1) (ncos angle2))))))))).

(** Methods inherited from [POAV]. *)
Definition super {A} (c : M POAV A) : M POAV2 A :=
  zoom POAV2_super
       (fun s self => mkPOAV2 s (cosa12 self) (cosa13 self) (cosa23 self)) c.

Definition n1 (self : POAV2) : num :=
  (- cosa23 self / (cosa12 self * cosa13 self))%num.

Definition n2 (self : POAV2) : num :=
  (- cosa13 self / (cosa12 self * cosa23 self))%num.

Definition n3 (self : POAV2) : num :=
  (- cosa12 self / (cosa23 self * cosa13 self))%num.

Definition m (self : POAV2) : num :=
  let s1 := (int 1 / (int 1 + n1 self))%num in
  let s2 := (int 1 / (int 1 + n2 self))%num in
  let s3 := (int 1 / (int 1 + n3 self))%num in
  (int 1 / py_sum [s1; s2; s3] - int 1)%num.

(** [POAV2.todict] *)
Definition todict (rad2deg : bool) : M POAV2 (gmap string num) :=
  (super_dict <- super (POAV_.todict rad2deg) ;;
   m_ <- gets m ;;
   n1_ <- gets n1 ;;
   n2_ <- gets n2 ;;
   n3_ <- gets n3 ;;
   ret (dict_update super_dict
          (list_to_map [("m", m_); ("n1", n1_); ("n2", n2_); ("n3", n3_)])))%monad.

End POAV2_.

(** ** class POAVR *)

Record POAVR : Type := mkPOAVR { POAVR_super : POAV }.

Module POAVR_.

(** [POAVR.__init__]; the loop over the three pairs (R, V) is written out. *)
Definition init (sigma_bonds : Bonds) : POAVR :=
  let self := POAV_.init sigma_bonds in
  mkPOAVR
    (mkPOAV (bonds self) (b1 self) (b2 self) (b3 self)
            (vscale (POAV_.R1 self) (POAV_.V1 self))
            (vscale (POAV_.R2 self) (POAV_.V2 self))
            (vscale (POAV_.R3 self) (POAV_.V3 self))
            (POAV_.R1 self * POAV_.R2 self * POAV_.R3 self * POAV_.T self)%num
            (_pyramidalization_angles self) (_sigma_pi_angles self)
            (_misalignment_angles self)).

(** Methods inherited from [POAV]. *)
Definition super {A} (c : M POAV A) : M POAVR A :=
  zoom POAVR_super (fun s _ => mkPOAVR s) c.

(** [POAVR] does not override [todict]. *)
Definition todict (rad2deg : bool) : M POAVR (gmap string num) :=
  super (POAV_.todict rad2deg).

End POAVR_.

(** ** class POAVAtomMixin and class POAVAtom *)

(** An instance of one of the four classes, and the method each class binds
    to [todict] (only [POAVR] inherits the one of [POAV]). *)
Inductive instance : Type :=
  | Inst_POAV (p : POAV)
  | Inst_POAV1 (p : POAV1)
  | Inst_POAV2 (p : POAV2)
  | Inst_POAVR (p : POAVR).

(** The attributes of the base class. *)
Definition base (i : instance) : POAV :=
  match i with
  | Inst_POAV p => p
  | Inst_POAV1 p => POAV1_super p
  | Inst_POAV2 p => POAV2_super p
  | Inst_POAVR p => POAVR_super p
  end.

(** [i.todict(rad2deg)] *)
Definition todict (rad2deg : bool) : M instance (gmap string num) :=
  fun i =>
    match i with
    | Inst_POAV p =>
        let (r, p') := POAV_.todict rad2deg p in (r, Inst_POAV p')
    | Inst_POAV1 p =>
        let (r, p') := POAV1_.todict rad2deg p in (r, Inst_POAV1 p')
    | Inst_POAV2 p =>
        let (r, p') := POAV2_.todict rad2deg p in (r, Inst_POAV2 p')
    | Inst_POAVR p =>
        let (r, p') := POAVR_.todict rad2deg p in (r, Inst_POAVR p')
    end.

(** What can be assigned to a slot of an atom: [None], an instance of one of
    the four classes, or any other value. *)
Inductive object : Type :=
  | ObjNone
  | ObjInstance (i : instance)
  | ObjOther (v : pyval).

(** The three classes are siblings below [POAV]: an instance of one is not an
    instance of another. *)
Definition isinstance_POAV1 (value : object) : bool :=
  match value with ObjInstance (Inst_POAV1 _) => true | _ => false end.

Definition isinstance_POAV2 (value : object) : bool :=
  match value with ObjInstance (Inst_POAV2 _) => true | _ => false end.

Definition isinstance_POAVR (value : object) : bool :=
  match value with ObjInstance (Inst_POAVR _) => true | _ => false end.

(** The attributes [POAVAtom] adds to those of its parent [KDTAtom]; the
    parent's own attributes are not used by the mixin and are left out. *)
Record POAVAtom : Type := mkPOAVAtom {
  _POAV1 : object;
  _POAV2 : object;
  _POAVR : object
}.

Module POAVAtom_.

(** [POAVAtom.__init__] *)
Definition init : POAVAtom :=
  {| _POAV1 := ObjNone; _POAV2 := ObjNone; _POAVR := ObjNone |}.

Definition get_POAV1 : M POAVAtom object := gets _POAV1.

Definition set_POAV1 (value : object) : M POAVAtom unit :=
  if negb (isinstance_POAV1 value) then raise TypeError
  else modify (fun self => mkPOAVAtom value (_POAV2 self) (_POAVR self)).

Definition get_POAV2 : M POAVAtom object := gets _POAV2.

Definition set_POAV2 (value : object) : M POAVAtom unit :=
  if negb (isinstance_POAV2 value) then raise TypeError
  else modify (fun self => mkPOAVAtom (_POAV1 self) value (_POAVR self)).

Definition get_POAVR : M POAVAtom object := gets _POAVR.

Definition set_POAVR (value : object) : M POAVAtom unit :=
  if negb (isinstance_POAVR value) then raise TypeError
  else modify (fun self => mkPOAVAtom (_POAV1 self) (_POAV2 self) value).

End POAVAtom_.

(** ** Auxiliary definitions: predicates of the statements and example
    instances *)

(** A vector whose components are real numbers, and a vector other than the
    zero vector. *)
Definition finite_vec (v : Vector) : Prop :=
  exists x y z : R, v = vec3 (Fin x) (Fin y) (Fin z).


(** Three bonds at pairwise angles of pi/3. *)
Definition bonds_pi3 : Bonds :=
  mkBonds (mkBond (vec3 (Fin 1) (Fin 1) (Fin 0)))
          (mkBond (vec3 (Fin 1) (Fin 0) (Fin 1)))
          (mkBond (vec3 (Fin 0) (Fin 1) (Fin 1)))
          (Fin (PI / 3)) (Fin (PI / 3)) (Fin (PI / 3)).

(** The reference triple product of the unit bond vectors over 6, the value
    [POAV.__init__] stores in [_T]. *)
Definition T0 (bs : Bonds) : num :=
  (scalar_triple_product (unit_vector (vector (bond0 bs)))
                         (unit_vector (vector (bond1 bs)))
                         (unit_vector (vector (bond2 bs))) / int 6)%num.


(** Three bonds of length 1 in a plane, at pairwise angles of 2 pi / 3 (ideal
    sp2). *)
Definition bonds_sp2 : Bonds :=
  mkBonds (mkBond (vec3 (Fin 1) (Fin 0) (Fin 0)))
          (mkBond (vec3 (Fin (- 1 / 2)) (Fin (sqrt 3 / 2)) (Fin 0)))
          (mkBond (vec3 (Fin (- 1 / 2)) (Fin (- sqrt 3 / 2)) (Fin 0)))
          (Fin (2 * PI / 3)) (Fin (2 * PI / 3)) (Fin (2 * PI / 3)).

(** The POAV1 instance of these bonds, after its sigma_pi_angles were set to
    three right angles. *)
Definition poav1_sp2 : POAV1 :=
  snd (POAV1_.super
         (POAV_.set_sigma_pi_angles
            (PyList [Fin (PI / 2); Fin (PI / 2); Fin (PI / 2)]))
         (POAV1_.init bonds_sp2)).

(** A method is read-only when the object is the same after every call,
    whether the call returns or raises. *)
Definition read_only {S A} (c : M S A) : Prop := forall s, snd (c s) = s.

(** The three angle arrays are set, each to a list of at least three
    elements. *)
Definition angles_set (self : POAV) : bool :=
  match POAV_.sigma_pi_angles self, POAV_.pyramidalization_angles self,
        POAV_.misalignment_angles self with
  | Some s, Some p, Some m =>
      (3 <=? length s)%nat && (3 <=? length p)%nat && (3 <=? length m)%nat
  | _, _, _ => false
  end.

(** The angle as [todict] exports it. *)
Definition exported (rad2deg : bool) (x : num) : num :=
  if rad2deg then degrees x else x.

(** The mapping [POAV.todict] builds from the first three elements of each
    array. *)
Definition base_dict (rad2deg : bool) (self : POAV)
    (s1 s2 s3 p1 p2 p3 m1 m2 m3 : num) : gmap string num :=
  list_to_map
    [("bond1", magnitude (b1 self)); ("bond2", magnitude (b2 self));
     ("bond3", magnitude (b3 self));
     ("sigma_pi_angle1", exported rad2deg s1);
     ("sigma_pi_angle2", exported rad2deg s2);
     ("sigma_pi_angle3", exported rad2deg s3);
     ("pyramidalization_angle1", exported rad2deg p1);
     ("pyramidalization_angle2", exported rad2deg p2);
     ("pyramidalization_angle3", exported rad2deg p3);
     ("misalignment_angle1", exported rad2deg m1);
     ("misalignment_angle2", exported rad2deg m2);
     ("misalignment_angle3", exported rad2deg m3);
     ("T", POAV_.T self); ("H", POAV_.H self); ("A", POAV_.A self)].

(** The value [POAV1.m] computes from a list of angles. *)
Definition m_of_angles (xs : list num) : num :=
  let cos2 := (ncos (np_mean xs) * ncos (np_mean xs))%num in
  (int 2 * cos2 / (int 1 - int 3 * cos2))%num.

(** The entries a sub-class adds to the mapping of the base class. *)
Definition extra_dict (i : instance) : gmap string num :=
  match i with
  | Inst_POAV _ | Inst_POAVR _ => ∅
  | Inst_POAV1 p =>
      let m_ :=
        match _sigma_pi_angles (POAV1_super p) with
        | Some xs => m_of_angles xs
        | None => NaN
        end in
      list_to_map [("m", m_); ("n", (int 3 * m_ + int 2)%num)]
  | Inst_POAV2 p =>
      list_to_map [("m", POAV2_.m p); ("n1", POAV2_.n1 p);
                   ("n2", POAV2_.n2 p); ("n3", POAV2_.n3 p)]
  end.

(** The keys of the mapping that hold angles, and those [POAV.todict]
    exports besides. *)
Definition angle_keys : list string :=
  ["sigma_pi_angle1"; "sigma_pi_angle2"; "sigma_pi_angle3";
   "pyramidalization_angle1"; "pyramidalization_angle2";
   "pyramidalization_angle3";
   "misalignment_angle1"; "misalignment_angle2"; "misalignment_angle3"].

Definition scalar_keys : list string :=
  ["bond1"; "bond2"; "bond3"; "T"; "H"; "A"].

(** The three setters called one after the other, as the step that computes
    the angles does. *)
Definition set_angles (s p m : list num) : M POAV unit :=
  (POAV_.set_sigma_pi_angles (PyList s) ;;;
   POAV_.set_pyramidalization_angles (PyList p) ;;;
   POAV_.set_misalignment_angles (PyList m))%monad.

(** Three arrays of angles as that step would set them. *)
Definition example_angles : M POAV unit :=
  set_angles [Fin (PI / 2); Fin (PI / 3); Fin (PI / 4)]
             [Fin 0; Fin (PI / 6); Fin (PI / 4)]
             [Fin 0; Fin 0; Fin 1].

(** A POAV1 and a POAVR instance on the bonds at angles of pi/3, with the
    three arrays set. *)
Definition example_POAV1 : instance :=
  Inst_POAV1 (snd (POAV1_.super example_angles (POAV1_.init bonds_pi3))).

Definition example_POAVR : instance :=
  Inst_POAVR (snd (POAVR_.super example_angles (POAVR_.init bonds_pi3))).

(** One of the three angle arrays is still [None]. *)
Definition some_unset (self : POAV) : bool :=
  match POAV_.sigma_pi_angles self, POAV_.pyramidalization_angles self,
        POAV_.misalignment_angles self with
  | Some _, Some _, Some _ => false
  | _, _, _ => true
  end.

(** A POAV1 instance with sigma_pi_angles set and the other arrays unset. *)
Definition example_half_set : POAV1 :=
  snd (POAV1_.super
         (POAV_.set_sigma_pi_angles
            (PyList [Fin (PI / 2); Fin (PI / 2); Fin (PI / 2)]))
         (POAV1_.init bonds_pi3)).

(** Three bonds in one plane. *)
Definition bonds_coplanar : Bonds :=
  mkBonds (mkBond (vec3 (Fin 1) (Fin 0) (Fin 0)))
          (mkBond (vec3 (Fin 0) (Fin 1) (Fin 0)))
          (mkBond (vec3 (Fin 1) (Fin 1) (Fin 0)))
          (Fin (PI / 2)) (Fin (PI / 4)) (Fin (PI / 4)).

(** The attributes the constructors set and the setters of the angle arrays
    never assign: the bonds, the bond vectors, the representative vectors
    and the stored T. *)
Definition same_geometry (self self' : POAV) : Prop :=
  bonds self' = bonds self
  /\ b1 self' = b1 self /\ b2 self' = b2 self /\ b3 self' = b3 self
  /\ _v1 self' = _v1 self /\ _v2 self' = _v2 self /\ _v3 self' = _v3 self
  /\ _T self' = _T self.

(** The three angle arrays are set, and one of them has fewer than three
    elements. *)
Definition some_short (self : POAV) : bool :=
  match POAV_.sigma_pi_angles self, POAV_.pyramidalization_angles self,
        POAV_.misalignment_angles self with
  | Some s, Some p, Some m =>
      negb ((3 <=? length s)%nat && (3 <=? length p)%nat
            && (3 <=? length m)%nat)
  | _, _, _ => false
  end.

(** The keys of the mapping [todict] returns, by class. *)
Definition todict_keys (i : instance) : list string :=
  scalar_keys ++ angle_keys
  ++ match i with
     | Inst_POAV _ | Inst_POAVR _ => []
     | Inst_POAV1 _ => ["m"; "n"]
     | Inst_POAV2 _ => ["m"; "n1"; "n2"; "n3"]
     end.


(** The angle whose squared cosine is 1/3, at which the denominator of
    [POAV1.m] is 0. *)
Definition pole_angle : R := acos (sqrt (1 / 3)).

(** ** The scalar expressions over binary64 numbers

    The arithmetic of this module is that of the hardware: every operation of
    [PrimFloat] rounds to the nearest binary64 number, as numpy's [float64]
    operations do.  [np.cos] is numpy's and is not defined here: the
    functions below take the cosines the constructor stored, and the two
    constants are the values numpy returns at the binary64 numbers nearest
    pi/3 and pi/2. *)

Module Float64.

Set Warnings "-inexact-float".


(** [np.cos(np.pi / 2)] *)
Definition cos_pi_2 : PrimFloat.float := 6.123233995736766e-17%float.

(** Modelled from the spec: the class [Vector] of [sknano.core.math], with
    its operations computed component by component. *)
Record Vector : Type :=
  vec3 { vx : PrimFloat.float; vy : PrimFloat.float; vz : PrimFloat.float }.

Definition vscale (c : PrimFloat.float) (a : Vector) : Vector :=
  vec3 (c * vx a) (c * vy a) (c * vz a).

Definition vdiv (a : Vector) (c : PrimFloat.float) : Vector :=
  vec3 (vx a / c) (vy a / c) (vz a / c).

(** Modelled from the spec: [vec.dot]. *)
Definition dot (a b : Vector) : PrimFloat.float :=
  (vx a * vx b + vy a * vy b + vz a * vz b)%float.

(** Modelled from the spec: [vec.cross]. *)
Definition cross (a b : Vector) : Vector :=
  vec3 (vy a * vz b - vz a * vy b)
       (vz a * vx b - vx a * vz b)
       (vx a * vy b - vy a * vx b).

(** Modelled from the spec: [vec.scalar_triple_product]. *)
Definition scalar_triple_product (u v w : Vector) : PrimFloat.float :=
  dot u (cross v w).

(** Modelled from the spec: [Vector.magnitude] and [Vector.length]. *)
Definition magnitude (a : Vector) : PrimFloat.float :=
  PrimFloat.sqrt (dot a a).

(** Modelled from the spec: [Vector.unit_vector]. *)
Definition unit_vector (a : Vector) : Vector := vdiv a (magnitude a).

(** The [_T] that [POAV.__init__] stores, which [POAV1] keeps. *)
Definition POAV_T (b1 b2 b3 : Vector) : PrimFloat.float :=
  (scalar_triple_product (unit_vector b1) (unit_vector b2) (unit_vector b3)
   / 6)%float.


(** [_T] and [t] of a POAVR instance. *)
Definition POAVR_T (b1 b2 b3 : Vector) : PrimFloat.float :=
  (magnitude b1 * magnitude b2 * magnitude b3 * POAV_T b1 b2 b3)%float.

Definition POAVR_t (b1 b2 b3 : Vector) : PrimFloat.float :=
  scalar_triple_product (vscale (magnitude b1) (unit_vector b1))
                        (vscale (magnitude b2) (unit_vector b2))
                        (vscale (magnitude b3) (unit_vector b3)).

(** [POAV2.n1], [n2], [n3] and [m], from the stored cosines. *)
Definition n1 (cosa12 cosa13 cosa23 : PrimFloat.float) : PrimFloat.float :=
  (- cosa23 / (cosa12 * cosa13))%float.

Definition n2 (cosa12 cosa13 cosa23 : PrimFloat.float) : PrimFloat.float :=
  (- cosa13 / (cosa12 * cosa23))%float.

Definition n3 (cosa12 cosa13 cosa23 : PrimFloat.float) : PrimFloat.float :=
  (- cosa12 / (cosa23 * cosa13))%float.

Definition m (cosa12 cosa13 cosa23 : PrimFloat.float) : PrimFloat.float :=
  let s1 := (1 / (1 + n1 cosa12 cosa13 cosa23))%float in
  let s2 := (1 / (1 + n2 cosa12 cosa13 cosa23))%float in
  let s3 := (1 / (1 + n3 cosa12 cosa13 cosa23))%float in
  (1 / (0 + s1 + s2 + s3) - 1)%float.

(** [np.mean] of three angles. *)
Definition mean3 (a b c : PrimFloat.float) : PrimFloat.float :=
  ((0 + a + b + c) / 3)%float.

(** [POAV1.m] and [POAV1.n], from the cosine of the mean of the
    sigma_pi_angles. *)
Definition POAV1_m (cos_mean : PrimFloat.float) : PrimFloat.float :=
  let cos2sigmapi := (cos_mean * cos_mean)%float in
  (2 * cos2sigmapi / (1 - 3 * cos2sigmapi))%float.

Definition POAV1_n (cos_mean : PrimFloat.float) : PrimFloat.float :=
  (3 * POAV1_m cos_mean + 2)%float.


End Float64.

(** * Properties *)

(** ** Arithmetic of [num] on finite values *)

Section NumFacts.

Implicit Types a b r : R.

Lemma Rsign_pos r : 0 < r -> Rsign r = Gt.
Proof.
  intros Hr. unfold Rsign.
  destruct (total_order_T r 0) as [[Hlt | Heq] | Hgt]; [lra | lra | reflexivity].
Qed.


Lemma Rsign_zero : Rsign 0 = Eq.
Proof.
  unfold Rsign.
  destruct (total_order_T 0 0) as [[Hlt | Heq] | Hgt]; [lra | reflexivity | lra].
Qed.

Lemma ndiv_fin a b : b <> 0 -> (Fin a / Fin b)%num = Fin (a / b).
Proof.
  intros Hb. unfold ndiv.
  destruct (Req_dec_T b 0) as [Heq | Hne]; [contradiction | reflexivity].
Qed.

Lemma ndiv_zero_zero : (Fin 0 / Fin 0)%num = NaN.
Proof.
  unfold ndiv.
  destruct (Req_dec_T 0 0) as [_ | Hne]; [| contradiction].
  now rewrite Rsign_zero.
Qed.

Lemma ndiv_pos_zero a : 0 < a -> (Fin a / Fin 0)%num = PInf.
Proof.
  intros Ha. unfold ndiv.
  destruct (Req_dec_T 0 0) as [_ | Hne]; [| contradiction].
  now rewrite Rsign_pos.
Qed.




Lemma nmul_1_l (x : num) : (int 1 * x)%num = x.
Proof.
  destruct x as [r | | |]; simpl; try reflexivity.
  - f_equal. lra.
  - now rewrite Rsign_pos by lra.
  - now rewrite Rsign_pos by lra.
Qed.

Lemma Fin_inj a b : Fin a = Fin b -> a = b.
Proof. now intros [= ->]. Qed.


End NumFacts.

(** ** Finite, non-zero vectors *)




(** ** The constructors *)

(** The loop of [POAV2.__init__] always selects one angle per bond, the
    angle of the other two bonds, and the constructor returns. *)
Lemma POAV2_init_ok (bs : Bonds) :
  POAV2_.init bs
  = Ok (let self := POAV_.init bs in
        mkPOAV2
          (mkPOAV bs (b1 self) (b2 self) (b3 self)
                  (vscale (ncos (a23 bs)) (POAV_.V1 self))
                  (vscale (ncos (a13 bs)) (POAV_.V2 self))
                  (vscale (ncos (a12 bs)) (POAV_.V3 self))
                  (- (int 1 * ncos (a12 bs) * ncos (a13 bs) * ncos (a23 bs))
                   * POAV_.T self)%num
                  None None None)
          (ncos (a12 bs)) (ncos (a13 bs)) (ncos (a23 bs))).
Proof. reflexivity. Qed.

(** ** C1: the identity of the combined hybridization index *)

Set Warnings "-inexact-float".





(** ** C6: the volume stored by POAVR *)




(** ** C9: the triple product of the representative vectors and T *)




Lemma finite_vec_intro (x y z : R) : finite_vec (vec3 (Fin x) (Fin y) (Fin z)).
Proof. now exists x, y, z. Qed.

(** ** C5: the hybridization indices of POAV1 *)

Lemma nadd_0_l (x : num) : (int 0 + x)%num = x.
Proof. destruct x as [r | | |]; cbn; try reflexivity. f_equal. lra. Qed.

(** The mean of three numbers. *)
Lemma np_mean_3 (a b c : num) :
  np_mean [a; b; c] = ((a + b + c) / int 3)%num.
Proof.
  unfold np_mean. cbn [fold_left length]. rewrite nadd_0_l.
  f_equal. unfold int. f_equal. cbn [INR]. lra.
Qed.

(** C5 as stated fails at the right angles.  The mean of three angles
    1.5707963267948966 (the float64 number nearest pi/2) is that number;
    numpy's cosine of it is 6.123233995736766e-17, not 0, and the program's m
    is 7.498798913309288e-33, not 0. *)
Lemma POAV1_m_not_zero_at_right_angles :
  (Float64.mean3 1.5707963267948966 1.5707963267948966 1.5707963267948966
   = 1.5707963267948966)%float
  /\ (Float64.POAV1_m Float64.cos_pi_2 = 7.498798913309288e-33)%float
  /\ (Float64.POAV1_m Float64.cos_pi_2 =? 0)%float = false.
Proof. vm_compute. repeat split. Qed.

(** C5, as the code has it.  For every POAV1 instance whose sigma_pi_angles
    are the three angles a, b, c, m is 2 cos^2(theta) / (1 - 3 cos^2(theta))
    for theta the mean (a + b + c) / 3, n is 3 m + 2, and neither read
    changes the instance.  With three angles pi/2 the program's n is 2 and
    its m is 7.498798913309288e-33. *)
Theorem POAV1_m_n_formulas (self : POAV1) (a b c : num) :
  POAV_.sigma_pi_angles (POAV1_super self) = Some [a; b; c] ->
  let theta := ((a + b + c) / int 3)%num in
  let cos2 := (ncos theta * ncos theta)%num in
  let m_ := (int 2 * cos2 / (int 1 - int 3 * cos2))%num in
  POAV1_.m self = (Ok m_, self)
  /\ POAV1_.n self = (Ok (int 3 * m_ + int 2)%num, self)
  /\ (Float64.POAV1_n Float64.cos_pi_2 = 2)%float
  /\ (Float64.POAV1_m Float64.cos_pi_2 = 7.498798913309288e-33)%float.
Proof.
  intros Hsigma theta cos2 m_.
  assert (Hm : POAV1_.m self = (Ok m_, self)).
  { unfold POAV1_.m, bind, gets, lift, ret. rewrite Hsigma.
    cbn [POAV1_.mean_of]. now rewrite np_mean_3. }
  split; [exact Hm |]. split.
  - unfold POAV1_.n, bind, ret. now rewrite Hm.
  - split; vm_compute; reflexivity.
Qed.

Lemma POAV1_m_n_formulas_witness :
  exists m_ : num,
    POAV1_.m poav1_sp2 = (Ok m_, poav1_sp2)
    /\ POAV1_.n poav1_sp2 = (Ok (int 3 * m_ + int 2)%num, poav1_sp2).
Proof.
  eexists.
  pose proof (POAV1_m_n_formulas poav1_sp2 (Fin (PI / 2)) (Fin (PI / 2))
                (Fin (PI / 2)) eq_refl) as H.
  cbv zeta in H. destruct H as (Hm & Hn & _). split; [exact Hm | exact Hn].
Defined.

(** ** C4: what the setters of the angle arrays accept *)

(** C4 as stated fails.  The setters of the three angle arrays look at the
    type of the value only:
    a 2-element list is stored like any other list, and a 3-element tuple
    is refused like any other value that is not a list. *)
Lemma setter_stores_list_of_two :
  POAV_.set_sigma_pi_angles (PyList [Fin 0; Fin 0]) (POAV_.init bonds_pi3)
  = (Ok tt,
     POAV_.with_sigma_pi_angles (Some [Fin 0; Fin 0]) (POAV_.init bonds_pi3))
  /\ POAV_.set_sigma_pi_angles (PyTuple [Fin 0; Fin 0; Fin 0])
                               (POAV_.init bonds_pi3)
     = (Raise TypeError, POAV_.init bonds_pi3).
Proof. split; reflexivity. Qed.

(** C4, as the code has it.  For every POAV instance each of the three
    setters stores any list, of whatever length, and the getter then returns
    that list; a value that is not a list is refused with TypeError and the
    instance is not changed. *)
Theorem setters_accept_any_list (self : POAV) (value : pyval) :
  (forall xs : list num, value = PyList xs ->
     POAV_.set_sigma_pi_angles value self
     = (Ok tt, POAV_.with_sigma_pi_angles (Some xs) self)
     /\ POAV_.sigma_pi_angles (POAV_.with_sigma_pi_angles (Some xs) self)
        = Some xs
     /\ POAV_.set_pyramidalization_angles value self
        = (Ok tt, POAV_.with_pyramidalization_angles (Some xs) self)
     /\ POAV_.pyramidalization_angles
          (POAV_.with_pyramidalization_angles (Some xs) self) = Some xs
     /\ POAV_.set_misalignment_angles value self
        = (Ok tt, POAV_.with_misalignment_angles (Some xs) self)
     /\ POAV_.misalignment_angles
          (POAV_.with_misalignment_angles (Some xs) self) = Some xs)
  /\ (isinstance_list value = false ->
      POAV_.set_sigma_pi_angles value self = (Raise TypeError, self)
      /\ POAV_.set_pyramidalization_angles value self = (Raise TypeError, self)
      /\ POAV_.set_misalignment_angles value self = (Raise TypeError, self)).
Proof.
  split.
  - intros xs ->. repeat split.
  - destruct value; cbn [isinstance_list]; intros [=]; repeat split.
Qed.

Lemma setters_accept_any_list_witness :
  POAV_.set_sigma_pi_angles (PyList [Fin 1; Fin 2; Fin 3; Fin 4])
                            (POAV_.init bonds_pi3)
  = (Ok tt,
     POAV_.with_sigma_pi_angles (Some [Fin 1; Fin 2; Fin 3; Fin 4])
                                (POAV_.init bonds_pi3))
  /\ POAV_.set_sigma_pi_angles (PyArray [Fin 1; Fin 2; Fin 3])
                               (POAV_.init bonds_pi3)
     = (Raise TypeError, POAV_.init bonds_pi3).
Proof.
  split.
  - apply (setters_accept_any_list (POAV_.init bonds_pi3)
             (PyList [Fin 1; Fin 2; Fin 3; Fin 4])).
    reflexivity.
  - apply (setters_accept_any_list (POAV_.init bonds_pi3)
             (PyArray [Fin 1; Fin 2; Fin 3])).
    reflexivity.
Defined.

(** ** C8: the slots of an atom *)

(** C8.  For each of the three slots of an atom: assigning a value that is
    not an instance of the slot's class raises TypeError (the spec's
    TypeMismatchError) and leaves the atom as it was, in particular a POAV2
    instance assigned to the POAVR slot; and reading a slot of a new atom
    returns None, without raising. *)
Theorem slot_setters_check_class (self : POAVAtom) (value : object) :
  (isinstance_POAV1 value = false ->
   POAVAtom_.set_POAV1 value self = (Raise TypeError, self))
  /\ (isinstance_POAV2 value = false ->
      POAVAtom_.set_POAV2 value self = (Raise TypeError, self))
  /\ (isinstance_POAVR value = false ->
      POAVAtom_.set_POAVR value self = (Raise TypeError, self))
  /\ (forall p : POAV2,
        POAVAtom_.set_POAVR (ObjInstance (Inst_POAV2 p)) self
        = (Raise TypeError, self))
  /\ POAVAtom_.get_POAV1 POAVAtom_.init = (Ok ObjNone, POAVAtom_.init)
  /\ POAVAtom_.get_POAV2 POAVAtom_.init = (Ok ObjNone, POAVAtom_.init)
  /\ POAVAtom_.get_POAVR POAVAtom_.init = (Ok ObjNone, POAVAtom_.init).
Proof.
  unfold POAVAtom_.set_POAV1, POAVAtom_.set_POAV2, POAVAtom_.set_POAVR.
  repeat split; try (intros ->; reflexivity).
Qed.

Lemma slot_setters_check_class_witness :
  POAVAtom_.set_POAV1 (ObjInstance (Inst_POAVR (POAVR_.init bonds_pi3)))
                      POAVAtom_.init
  = (Raise TypeError, POAVAtom_.init)
  /\ POAVAtom_.set_POAV2 ObjNone POAVAtom_.init
     = (Raise TypeError, POAVAtom_.init)
  /\ POAVAtom_.set_POAVR (ObjInstance (Inst_POAV1 (POAV1_.init bonds_pi3)))
                         POAVAtom_.init
     = (Raise TypeError, POAVAtom_.init).
Proof.
  split; [| split].
  - now apply (slot_setters_check_class POAVAtom_.init
                 (ObjInstance (Inst_POAVR (POAVR_.init bonds_pi3)))).
  - now apply (slot_setters_check_class POAVAtom_.init ObjNone).
  - now apply (slot_setters_check_class POAVAtom_.init
                 (ObjInstance (Inst_POAV1 (POAV1_.init bonds_pi3)))).
Defined.

(** ** Methods that only read *)

Section ReadOnly.

Context {S : Type}.

Lemma read_only_ret {A} (a : A) : read_only (S := S) (ret a).
Proof. now intros s. Qed.

Lemma read_only_raise {A} (e : exn) : read_only (S := S) (A := A) (raise e).
Proof. now intros s. Qed.

Lemma read_only_gets {A} (f : S -> A) : read_only (gets f).
Proof. now intros s. Qed.

Lemma read_only_lift {A} (r : result A) : read_only (S := S) (lift r).
Proof. now intros s. Qed.

Lemma read_only_bind {A B} (c : M S A) (k : A -> M S B) :
  read_only c -> (forall a, read_only (k a)) -> read_only (bind c k).
Proof.
  intros Hc Hk s. unfold bind. specialize (Hc s).
  destruct (c s) as [[a | e] s']; cbn [snd] in *; subst s'.
  - apply Hk.
  - reflexivity.
Qed.

Lemma read_only_zoom {S' A} (proj : S' -> S) (upd : S -> S' -> S')
    (c : M S A) :
  (forall s', upd (proj s') s' = s') -> read_only c ->
  read_only (zoom proj upd c).
Proof.
  intros Hlens Hc s'. unfold zoom. specialize (Hc (proj s')).
  destruct (c (proj s')) as [r s]. cbn [snd] in *. subst s. apply Hlens.
Qed.

End ReadOnly.

Ltac read_only_steps :=
  repeat first
    [ apply read_only_bind; [| intros ?]
    | apply read_only_gets
    | apply read_only_lift
    | apply read_only_ret
    | apply read_only_raise
    | match goal with
      | |- read_only (if ?b then _ else _) => destruct b
      end ].

Lemma POAV_todict_read_only (rad2deg : bool) :
  read_only (POAV_.todict rad2deg).
Proof. unfold POAV_.todict. read_only_steps. Qed.

Lemma POAV1_m_read_only : read_only POAV1_.m.
Proof. unfold POAV1_.m. read_only_steps. Qed.

Lemma POAV1_n_read_only : read_only POAV1_.n.
Proof.
  unfold POAV1_.n. apply read_only_bind; [apply POAV1_m_read_only |].
  intros ?. apply read_only_ret.
Qed.

Lemma POAV1_todict_read_only (rad2deg : bool) :
  read_only (POAV1_.todict rad2deg).
Proof.
  unfold POAV1_.todict, POAV1_.super.
  apply read_only_bind.
  - apply read_only_zoom; [now intros [s] | apply POAV_todict_read_only].
  - intros d. apply read_only_bind; [apply POAV1_m_read_only | intros m_].
    apply read_only_bind; [apply POAV1_n_read_only | intros n_].
    apply read_only_ret.
Qed.

Lemma POAV2_todict_read_only (rad2deg : bool) :
  read_only (POAV2_.todict rad2deg).
Proof.
  unfold POAV2_.todict, POAV2_.super.
  apply read_only_bind.
  - apply read_only_zoom; [now intros [s c12 c13 c23] |].
    apply POAV_todict_read_only.
  - intros d. read_only_steps.
Qed.

Lemma POAVR_todict_read_only (rad2deg : bool) :
  read_only (POAVR_.todict rad2deg).
Proof.
  unfold POAVR_.todict, POAVR_.super.
  apply read_only_zoom; [now intros [s] | apply POAV_todict_read_only].
Qed.

(** [todict] of any instance is read-only. *)
Lemma todict_read_only (rad2deg : bool) : read_only (todict rad2deg).
Proof.
  intros [p | p | p | p]; unfold todict.
  - pose proof (POAV_todict_read_only rad2deg p) as H.
    destruct (POAV_.todict rad2deg p) as [r p']. cbn [snd] in *. now subst.
  - pose proof (POAV1_todict_read_only rad2deg p) as H.
    destruct (POAV1_.todict rad2deg p) as [r p']. cbn [snd] in *. now subst.
  - pose proof (POAV2_todict_read_only rad2deg p) as H.
    destruct (POAV2_.todict rad2deg p) as [r p']. cbn [snd] in *. now subst.
  - pose proof (POAVR_todict_read_only rad2deg p) as H.
    destruct (POAVR_.todict rad2deg p) as [r p']. cbn [snd] in *. now subst.
Qed.

(** ** What [todict] returns *)

Lemma angles_set_inv (self : POAV) :
  angles_set self = true ->
  exists s1 s2 s3 s' p1 p2 p3 p' m1 m2 m3 m',
    _sigma_pi_angles self = Some (s1 :: s2 :: s3 :: s')
    /\ _pyramidalization_angles self = Some (p1 :: p2 :: p3 :: p')
    /\ _misalignment_angles self = Some (m1 :: m2 :: m3 :: m').
Proof.
  unfold angles_set, POAV_.sigma_pi_angles, POAV_.pyramidalization_angles,
    POAV_.misalignment_angles.
  destruct (_sigma_pi_angles self) as [[| s1 [| s2 [| s3 s']]] |];
    destruct (_pyramidalization_angles self) as [[| p1 [| p2 [| p3 p']]] |];
    destruct (_misalignment_angles self) as [[| m1 [| m2 [| m3 m']]] |];
    cbn; intros [=].
  now exists s1, s2, s3, s', p1, p2, p3, p', m1, m2, m3, m'.
Qed.

Lemma POAV_todict_ok (rad2deg : bool) (self : POAV)
    (s1 s2 s3 p1 p2 p3 m1 m2 m3 : num) (s' p' m' : list num) :
  _sigma_pi_angles self = Some (s1 :: s2 :: s3 :: s') ->
  _pyramidalization_angles self = Some (p1 :: p2 :: p3 :: p') ->
  _misalignment_angles self = Some (m1 :: m2 :: m3 :: m') ->
  POAV_.todict rad2deg self
  = (Ok (base_dict rad2deg self s1 s2 s3 p1 p2 p3 m1 m2 m3), self).
Proof.
  intros Hs Hp Hm.
  unfold POAV_.todict, bind, gets, lift, ret, POAV_.sigma_pi_angles,
    POAV_.pyramidalization_angles, POAV_.misalignment_angles.
  rewrite Hs, Hp, Hm. now destruct rad2deg.
Qed.

Lemma zoom_unchanged {S S' A} (proj : S' -> S) (upd : S -> S' -> S')
    (c : M S A) (s' : S') (r : result A) :
  c (proj s') = (r, proj s') -> upd (proj s') s' = s' ->
  zoom proj upd c s' = (r, s').
Proof. intros Hc Hlens. unfold zoom. now rewrite Hc, Hlens. Qed.

Lemma POAV1_m_ok (self : POAV1) (xs : list num) :
  _sigma_pi_angles (POAV1_super self) = Some xs ->
  POAV1_.m self = (Ok (m_of_angles xs), self).
Proof.
  intros Hs. unfold POAV1_.m, bind, gets, lift, ret, POAV_.sigma_pi_angles.
  now rewrite Hs.
Qed.

Lemma POAV1_n_ok (self : POAV1) (xs : list num) :
  _sigma_pi_angles (POAV1_super self) = Some xs ->
  POAV1_.n self = (Ok (int 3 * m_of_angles xs + int 2)%num, self).
Proof.
  intros Hs. unfold POAV1_.n, bind, ret. now rewrite (POAV1_m_ok _ _ Hs).
Qed.

(** With the three arrays set, [todict] of any instance returns the mapping
    of the base class extended by the entries of the sub-class. *)
Lemma todict_ok (rad2deg : bool) (i : instance)
    (s1 s2 s3 p1 p2 p3 m1 m2 m3 : num) (s' p' m' : list num) :
  _sigma_pi_angles (base i) = Some (s1 :: s2 :: s3 :: s') ->
  _pyramidalization_angles (base i) = Some (p1 :: p2 :: p3 :: p') ->
  _misalignment_angles (base i) = Some (m1 :: m2 :: m3 :: m') ->
  todict rad2deg i
  = (Ok (dict_update
           (base_dict rad2deg (base i) s1 s2 s3 p1 p2 p3 m1 m2 m3)
           (extra_dict i)), i).
Proof.
  intros Hs Hp Hm.
  pose proof (POAV_todict_ok rad2deg (base i) _ _ _ _ _ _ _ _ _ _ _ _
                Hs Hp Hm) as Hbase.
  destruct i as [p | p | p | p]; cbn [base] in *; unfold todict.
  - rewrite Hbase. unfold dict_update, extra_dict.
    now rewrite (left_id_L ∅ (∪)).
  - unfold POAV1_.todict, POAV1_.super, bind.
    rewrite (zoom_unchanged _ _ _ _ _ Hbase) by now destruct p.
    rewrite (POAV1_m_ok _ _ Hs), (POAV1_n_ok _ _ Hs).
    cbn [extra_dict]. now rewrite Hs.
  - unfold POAV2_.todict, POAV2_.super, bind.
    rewrite (zoom_unchanged _ _ _ _ _ Hbase) by now destruct p.
    reflexivity.
  - unfold POAVR_.todict, POAVR_.super.
    rewrite (zoom_unchanged _ _ _ _ _ Hbase) by now destruct p.
    unfold dict_update, extra_dict. now rewrite (left_id_L ∅ (∪)).
Qed.

(** ** C7: degrees and radians *)

(** A key the sub-class does not add keeps the value of the base class. *)
Lemma dict_update_lookup_base (d other : gmap string num) (k : string) :
  other !! k = None -> dict_update d other !! k = d !! k.
Proof. intros Hk. unfold dict_update. now apply lookup_union_r. Qed.

(** C7.  For every instance (of any of the four classes) whose three angle
    arrays are set, todict returns a mapping for both values of rad2deg and
    leaves the instance as it was; under each of the nine angle keys the
    value with rad2deg=True is the value with rad2deg=False times 180/pi, and
    under bond1, bond2, bond3, T, H and A the two mappings hold the same
    value. *)
Theorem todict_degrees_law (i : instance) :
  angles_set (base i) = true ->
  exists d_rad d_deg : gmap string num,
    todict false i = (Ok d_rad, i)
    /\ todict true i = (Ok d_deg, i)
    /\ Forall (fun k => exists x : num,
                 d_rad !! k = Some x
                 /\ d_deg !! k = Some (x * Fin (180 / PI))%num) angle_keys
    /\ Forall (fun k => exists x : num,
                 d_rad !! k = Some x /\ d_deg !! k = Some x) scalar_keys.
Proof.
  intros Hset. apply angles_set_inv in Hset.
  destruct Hset as (s1 & s2 & s3 & s' & p1 & p2 & p3 & p' & m1 & m2 & m3 & m'
                    & Hs & Hp & Hm).
  do 2 eexists.
  split; [apply (todict_ok false i _ _ _ _ _ _ _ _ _ _ _ _ Hs Hp Hm) |].
  split; [apply (todict_ok true i _ _ _ _ _ _ _ _ _ _ _ _ Hs Hp Hm) |].
  unfold angle_keys, scalar_keys.
  split; repeat apply Forall_cons_2; try apply Forall_nil_2;
    eexists;
    rewrite !dict_update_lookup_base by (destruct i; reflexivity);
    split; reflexivity.
Qed.

Lemma todict_degrees_law_witness :
  exists d_rad d_deg : gmap string num,
    todict false example_POAV1 = (Ok d_rad, example_POAV1)
    /\ todict true example_POAV1 = (Ok d_deg, example_POAV1)
    /\ Forall (fun k => exists x : num,
                 d_rad !! k = Some x
                 /\ d_deg !! k = Some (x * Fin (180 / PI))%num) angle_keys
    /\ Forall (fun k => exists x : num,
                 d_rad !! k = Some x /\ d_deg !! k = Some x) scalar_keys.
Proof. apply (todict_degrees_law example_POAV1). reflexivity. Defined.

(** ** C10: [todict] changes nothing *)

(** C10.  For every instance (of any of the four classes) with the three
    angle arrays set and for both values of rad2deg, todict returns a mapping
    and the instance after the call is the instance before it, attribute by
    attribute: the bond vectors, the representative vectors, the stored T and
    the three arrays; a second call returns the same mapping. *)
Theorem todict_changes_nothing (i : instance) (rad2deg : bool) :
  angles_set (base i) = true ->
  snd (todict rad2deg i) = i
  /\ exists d : gmap string num,
       todict rad2deg i = (Ok d, i)
       /\ todict rad2deg (snd (todict rad2deg i)) = (Ok d, i).
Proof.
  intros Hset. split; [apply todict_read_only |].
  apply angles_set_inv in Hset.
  destruct Hset as (s1 & s2 & s3 & s' & p1 & p2 & p3 & p' & m1 & m2 & m3 & m'
                    & Hs & Hp & Hm).
  pose proof (todict_ok rad2deg i _ _ _ _ _ _ _ _ _ _ _ _ Hs Hp Hm) as Hok.
  eexists. split; [exact Hok |].
  now rewrite todict_read_only.
Qed.

Lemma todict_changes_nothing_witness :
  snd (todict true example_POAVR) = example_POAVR
  /\ exists d : gmap string num,
       todict true example_POAVR = (Ok d, example_POAVR)
       /\ todict true (snd (todict true example_POAVR))
          = (Ok d, example_POAVR).
Proof. apply (todict_changes_nothing example_POAVR true). reflexivity. Defined.

(** ** C3: reading before the arrays are set *)

(** C3 as stated fails.  On a new instance [todict] ends with the TypeError
    Python raises when
    [None] is subscripted, and [POAV1.m] with the TypeError that [np.mean]
    raises on [None]: the exception is a built-in one, not an exception
    class named MissingDataError. *)
Lemma todict_unset_is_TypeError :
  POAV_.todict false (POAV_.init bonds_pi3)
  = (Raise TypeError, POAV_.init bonds_pi3)
  /\ POAV1_.m (POAV1_.init bonds_pi3)
     = (Raise TypeError, POAV1_.init bonds_pi3)
  /\ exn_name TypeError <> "MissingDataError".
Proof. repeat split. discriminate. Qed.

Lemma POAV_todict_unset (self : POAV) (rad2deg : bool) :
  some_unset self = true ->
  exists e : exn,
    POAV_.todict rad2deg self = (Raise e, self)
    /\ (e = TypeError \/ (e = IndexError /\ rad2deg = false)).
Proof.
  unfold some_unset, POAV_.todict, bind, gets, lift, ret,
    POAV_.sigma_pi_angles, POAV_.pyramidalization_angles,
    POAV_.misalignment_angles.
  destruct (_sigma_pi_angles self) as [[| s1 [| s2 [| s3 s']]] |];
    destruct (_pyramidalization_angles self) as [[| p1 [| p2 [| p3 p']]] |];
    destruct (_misalignment_angles self) as [[| m1 [| m2 [| m3 m']]] |];
    intros [=]; destruct rad2deg; eexists; (split; [reflexivity |]); auto.
Qed.

(** An exception of the inherited method is the exception of the call. *)
Lemma todict_raise (i : instance) (rad2deg : bool) (e : exn) :
  POAV_.todict rad2deg (base i) = (Raise e, base i) ->
  todict rad2deg i = (Raise e, i).
Proof.
  intros Hbase. destruct i as [p | p | p | p]; cbn [base] in *; unfold todict.
  - now rewrite Hbase.
  - unfold POAV1_.todict, POAV1_.super, bind.
    now rewrite (zoom_unchanged _ _ _ _ _ Hbase) by now destruct p.
  - unfold POAV2_.todict, POAV2_.super, bind.
    now rewrite (zoom_unchanged _ _ _ _ _ Hbase) by now destruct p.
  - unfold POAVR_.todict, POAVR_.super.
    now rewrite (zoom_unchanged _ _ _ _ _ Hbase) by now destruct p.
Qed.

(** C3, as the code has it.  For every instance (of any of the four classes)
    with one of the three angle arrays unset, todict raises and leaves the
    instance as it was; the exception is Python's TypeError, or, with
    rad2deg=False only, IndexError (when an array read before the unset one
    is set to fewer than three elements).  Reading m or n of a POAV1
    instance whose sigma_pi_angles are unset raises TypeError. *)
Theorem unset_arrays_raise_builtin (i : instance) (rad2deg : bool) :
  (some_unset (base i) = true ->
   exists e : exn,
     todict rad2deg i = (Raise e, i)
     /\ (e = TypeError \/ (e = IndexError /\ rad2deg = false)))
  /\ (forall p : POAV1,
        POAV_.sigma_pi_angles (POAV1_super p) = None ->
        POAV1_.m p = (Raise TypeError, p)
        /\ POAV1_.n p = (Raise TypeError, p)).
Proof.
  split.
  - intros Hunset.
    destruct (POAV_todict_unset _ rad2deg Hunset) as (e & Hraise & He).
    exists e. split; [now apply todict_raise | exact He].
  - intros p Hs.
    assert (Hm : POAV1_.m p = (Raise TypeError, p)).
    { unfold POAV1_.m, bind, gets, lift. now rewrite Hs. }
    split; [exact Hm |]. unfold POAV1_.n, bind. now rewrite Hm.
Qed.

Lemma unset_arrays_raise_builtin_witness :
  (exists e : exn,
     todict true (Inst_POAV1 example_half_set)
     = (Raise e, Inst_POAV1 example_half_set)
     /\ (e = TypeError \/ (e = IndexError /\ true = false)))
  /\ POAV1_.m (POAV1_.init bonds_pi3)
     = (Raise TypeError, POAV1_.init bonds_pi3)
  /\ POAV1_.n (POAV1_.init bonds_pi3)
     = (Raise TypeError, POAV1_.init bonds_pi3).
Proof.
  split.
  - now apply (unset_arrays_raise_builtin (Inst_POAV1 example_half_set) true).
  - now apply (proj2 (unset_arrays_raise_builtin
                        (Inst_POAV1 example_half_set) true)
                 (POAV1_.init bonds_pi3)).
Defined.

(** ** C2: degenerate geometry *)

Lemma Rsign_of_zero (r : R) : r = 0 -> Rsign r = Eq.
Proof. intros ->. apply Rsign_zero. Qed.






(** * Further properties of the classes *)

(** ** Unit vectors and bond lengths *)









(** ** The pi-orbital axis vector *)











(** ** Coplanar bonds *)

Lemma ndiv_by_zero_cases (a : R) :
  (Fin a / Fin 0)%num = NaN \/ (Fin a / Fin 0)%num = PInf
  \/ (Fin a / Fin 0)%num = NInf.
Proof.
  unfold ndiv. destruct (Req_dec_T 0 0) as [_ | Hne]; [| contradiction].
  destruct (Rsign a); auto.
Qed.

(** X6.  For every instance whose representative vectors have real
    components and whose triple product t is exactly 0 (coplanar vectors),
    nothing is raised: A is nan or +infinity, and, when the stored T is
    real, H is nan or 0. *)
Theorem coplanar_gives_A_nan_or_inf (self : POAV) :
  finite_vec (POAV_.v1 self) -> finite_vec (POAV_.v2 self) ->
  finite_vec (POAV_.v3 self) -> POAV_.t self = Fin 0 ->
  (POAV_.A self = NaN \/ POAV_.A self = PInf)
  /\ forall tau : R,
       POAV_.T self = Fin tau ->
       POAV_.H self = NaN \/ POAV_.H self = Fin 0.
Proof.
  intros (x1 & y1 & z1 & H1) (x2 & y2 & z2 & H2) (x3 & y3 & z3 & H3) Ht.
  assert (HA : POAV_.A self = NaN \/ POAV_.A self = PInf).
  { unfold POAV_.A, POAV_.vpi, POAV_.reciprocal_v1, POAV_.reciprocal_v2,
      POAV_.reciprocal_v3. rewrite Ht, H1, H2, H3.
    unfold vdiv, vadd, cross, magnitude, dot.
    cbn [vx vy vz nmul nsub nadd nneg].
    match goal with
    | |- context [ (Fin ?a / Fin 0 * _ + (Fin ?b / Fin 0) * _
                    + (Fin ?c / Fin 0) * _)%num ] =>
        destruct (ndiv_by_zero_cases a) as [-> | [-> | ->]];
        destruct (ndiv_by_zero_cases b) as [-> | [-> | ->]];
        destruct (ndiv_by_zero_cases c) as [-> | [-> | ->]]
    end; cbn; auto. }
  split; [exact HA |].
  intros tau Htau. unfold POAV_.H. rewrite Htau.
  destruct HA as [-> | ->]; cbn; auto.
Qed.

Lemma coplanar_gives_A_nan_or_inf_witness :
  (POAV_.A (POAV_.init bonds_coplanar) = NaN
   \/ POAV_.A (POAV_.init bonds_coplanar) = PInf)
  /\ forall tau : R,
       POAV_.T (POAV_.init bonds_coplanar) = Fin tau ->
       POAV_.H (POAV_.init bonds_coplanar) = NaN
       \/ POAV_.H (POAV_.init bonds_coplanar) = Fin 0.
Proof.
  apply (coplanar_gives_A_nan_or_inf (POAV_.init bonds_coplanar));
    try apply finite_vec_intro.
  unfold POAV_.t. cbn. f_equal. lra.
Defined.

(** ** POAV2 *)

(** X7.  The constructor of POAV2 returns for all bonds: the representative
    vector of each bond is its unit vector times the cosine of the angle
    between the other two bonds (the angles being those of the pairs (1,2),
    (1,3), (2,3) in this order), cosa12, cosa13 and cosa23 are the cosines of
    the three angles in their order, the stored T is minus the product of the
    three cosines times T0, and each of the three angle arrays is unset. *)
Theorem POAV2_init_returns (bs : Bonds) :
  exists p : POAV2,
    POAV2_.init bs = Ok p
    /\ POAV_.v1 (POAV2_super p)
       = vscale (ncos (a23 bs)) (unit_vector (vector (bond0 bs)))
    /\ POAV_.v2 (POAV2_super p)
       = vscale (ncos (a13 bs)) (unit_vector (vector (bond1 bs)))
    /\ POAV_.v3 (POAV2_super p)
       = vscale (ncos (a12 bs)) (unit_vector (vector (bond2 bs)))
    /\ cosa12 p = ncos (a12 bs) /\ cosa13 p = ncos (a13 bs)
    /\ cosa23 p = ncos (a23 bs)
    /\ POAV_.T (POAV2_super p)
       = (- (ncos (a12 bs) * ncos (a13 bs) * ncos (a23 bs)) * T0 bs)%num
    /\ POAV_.sigma_pi_angles (POAV2_super p) = None
    /\ POAV_.pyramidalization_angles (POAV2_super p) = None
    /\ POAV_.misalignment_angles (POAV2_super p) = None.
Proof.
  eexists. split; [reflexivity |].
  repeat split.
  unfold POAV_.T, reduce_mul, angles.
  cbn [POAV2_super _T bonds POAV_.init map fold_left]. now rewrite nmul_1_l.
Qed.


(** ** The setters of the angle arrays *)

(** X10.  The angle arrays are not write-once: for every instance and each
    of the three setters, a second list replaces the first, and a refused
    second value leaves the first list in place. *)
Theorem setters_overwrite (self : POAV) (xs ys : list num) (bad : pyval) :
  isinstance_list bad = false ->
  ((POAV_.set_sigma_pi_angles (PyList xs) ;;;
    POAV_.set_sigma_pi_angles (PyList ys))%monad self
   = POAV_.set_sigma_pi_angles (PyList ys) self
   /\ (POAV_.set_pyramidalization_angles (PyList xs) ;;;
       POAV_.set_pyramidalization_angles (PyList ys))%monad self
      = POAV_.set_pyramidalization_angles (PyList ys) self
   /\ (POAV_.set_misalignment_angles (PyList xs) ;;;
       POAV_.set_misalignment_angles (PyList ys))%monad self
      = POAV_.set_misalignment_angles (PyList ys) self)
  /\ ((POAV_.set_sigma_pi_angles (PyList xs) ;;;
       POAV_.set_sigma_pi_angles bad)%monad self
      = (Raise TypeError, POAV_.with_sigma_pi_angles (Some xs) self)
      /\ (POAV_.set_pyramidalization_angles (PyList xs) ;;;
          POAV_.set_pyramidalization_angles bad)%monad self
         = (Raise TypeError,
            POAV_.with_pyramidalization_angles (Some xs) self)
      /\ (POAV_.set_misalignment_angles (PyList xs) ;;;
          POAV_.set_misalignment_angles bad)%monad self
         = (Raise TypeError, POAV_.with_misalignment_angles (Some xs) self)).
Proof.
  intros Hbad. split.
  - repeat split.
  - destruct bad; cbn [isinstance_list] in Hbad; try discriminate;
      repeat split.
Qed.

Lemma setters_overwrite_witness :
  (POAV_.set_sigma_pi_angles (PyList [Fin 1; Fin 2; Fin 3]) ;;;
   POAV_.set_sigma_pi_angles (PyList [Fin 4; Fin 5; Fin 6]))%monad
    (POAV_.init bonds_pi3)
  = POAV_.set_sigma_pi_angles (PyList [Fin 4; Fin 5; Fin 6])
      (POAV_.init bonds_pi3)
  /\ (POAV_.set_sigma_pi_angles (PyList [Fin 1; Fin 2; Fin 3]) ;;;
      POAV_.set_sigma_pi_angles PyNone)%monad (POAV_.init bonds_pi3)
     = (Raise TypeError,
        POAV_.with_sigma_pi_angles (Some [Fin 1; Fin 2; Fin 3])
          (POAV_.init bonds_pi3)).
Proof.
  split;
    now apply (setters_overwrite (POAV_.init bonds_pi3) [Fin 1; Fin 2; Fin 3]
                 [Fin 4; Fin 5; Fin 6] PyNone).
Defined.

(** X11.  For every instance and every value, accepted or refused, each of
    the three setters leaves the bonds, the bond vectors, the representative
    vectors, the stored T and the other two angle arrays as they were (so
    that t, vpi, A and H are the same before and after); and two setters of
    different arrays give the same instance in either order. *)
Theorem setters_are_independent (self : POAV) (value : pyval)
    (xs ys : list num) :
  let s := snd (POAV_.set_sigma_pi_angles value self) in
  let p := snd (POAV_.set_pyramidalization_angles value self) in
  let m := snd (POAV_.set_misalignment_angles value self) in
  (same_geometry self s
   /\ _pyramidalization_angles s = _pyramidalization_angles self
   /\ _misalignment_angles s = _misalignment_angles self)
  /\ (same_geometry self p
      /\ _sigma_pi_angles p = _sigma_pi_angles self
      /\ _misalignment_angles p = _misalignment_angles self)
  /\ (same_geometry self m
      /\ _sigma_pi_angles m = _sigma_pi_angles self
      /\ _pyramidalization_angles m = _pyramidalization_angles self)
  /\ (POAV_.t s = POAV_.t self /\ POAV_.vpi s = POAV_.vpi self
      /\ POAV_.A s = POAV_.A self /\ POAV_.H s = POAV_.H self)
  /\ (POAV_.set_sigma_pi_angles (PyList xs) ;;;
      POAV_.set_pyramidalization_angles (PyList ys))%monad self
     = (POAV_.set_pyramidalization_angles (PyList ys) ;;;
        POAV_.set_sigma_pi_angles (PyList xs))%monad self
  /\ (POAV_.set_sigma_pi_angles (PyList xs) ;;;
      POAV_.set_misalignment_angles (PyList ys))%monad self
     = (POAV_.set_misalignment_angles (PyList ys) ;;;
        POAV_.set_sigma_pi_angles (PyList xs))%monad self
  /\ (POAV_.set_pyramidalization_angles (PyList xs) ;;;
      POAV_.set_misalignment_angles (PyList ys))%monad self
     = (POAV_.set_misalignment_angles (PyList ys) ;;;
        POAV_.set_pyramidalization_angles (PyList xs))%monad self.
Proof.
  cbv zeta. unfold same_geometry. destruct value; repeat split.
Qed.

(** ** [todict] after the setters *)

(** X12.  For every instance, whatever its arrays held before: after the
    three setters were given lists of at least three elements, todict
    returns for both values of rad2deg; the entry of angle key number k of an
    array is element k of the list given for it (in degrees when rad2deg is
    true), the elements after the third are not exported, and bond1, bond2,
    bond3, T, H and A are the bond lengths and the properties T, H and A of
    the instance. *)
Theorem todict_after_set_angles (self : POAV) (rad2deg : bool)
    (s1 s2 s3 p1 p2 p3 m1 m2 m3 : num) (s' p' m' : list num) :
  exists (self' : POAV) (d : gmap string num),
    set_angles (s1 :: s2 :: s3 :: s') (p1 :: p2 :: p3 :: p')
               (m1 :: m2 :: m3 :: m') self = (Ok tt, self')
    /\ POAV_.todict rad2deg self' = (Ok d, self')
    /\ d !! "sigma_pi_angle1" = Some (exported rad2deg s1)
    /\ d !! "sigma_pi_angle2" = Some (exported rad2deg s2)
    /\ d !! "sigma_pi_angle3" = Some (exported rad2deg s3)
    /\ d !! "pyramidalization_angle1" = Some (exported rad2deg p1)
    /\ d !! "pyramidalization_angle2" = Some (exported rad2deg p2)
    /\ d !! "pyramidalization_angle3" = Some (exported rad2deg p3)
    /\ d !! "misalignment_angle1" = Some (exported rad2deg m1)
    /\ d !! "misalignment_angle2" = Some (exported rad2deg m2)
    /\ d !! "misalignment_angle3" = Some (exported rad2deg m3)
    /\ d !! "bond1" = Some (POAV_.R1 self)
    /\ d !! "bond2" = Some (POAV_.R2 self)
    /\ d !! "bond3" = Some (POAV_.R3 self)
    /\ d !! "T" = Some (POAV_.T self)
    /\ d !! "H" = Some (POAV_.H self)
    /\ d !! "A" = Some (POAV_.A self).
Proof.
  do 2 eexists. split; [reflexivity |]. split.
  - apply (POAV_todict_ok rad2deg _ s1 s2 s3 p1 p2 p3 m1 m2 m3 s' p' m');
      reflexivity.
  - repeat split.
Qed.

Lemma POAV_todict_short (self : POAV) (rad2deg : bool) :
  some_short self = true ->
  POAV_.todict rad2deg self = (Raise IndexError, self).
Proof.
  unfold some_short, POAV_.todict, bind, gets, lift, ret,
    POAV_.sigma_pi_angles, POAV_.pyramidalization_angles,
    POAV_.misalignment_angles.
  destruct (_sigma_pi_angles self) as [[| s1 [| s2 [| s3 s']]] |];
    destruct (_pyramidalization_angles self) as [[| p1 [| p2 [| p3 p']]] |];
    destruct (_misalignment_angles self) as [[| m1 [| m2 [| m3 m']]] |];
    intros [=]; destruct rad2deg; reflexivity.
Qed.

(** X13.  For every instance (of any of the four classes) whose three angle
    arrays are set, one of them to fewer than three elements, todict raises
    IndexError for both values of rad2deg and leaves the instance as it
    was. *)
Theorem todict_short_array_raises (i : instance) (rad2deg : bool) :
  some_short (base i) = true ->
  todict rad2deg i = (Raise IndexError, i).
Proof.
  intros Hshort. apply todict_raise. now apply POAV_todict_short.
Qed.

Lemma todict_short_array_raises_witness :
  todict true
    (Inst_POAV (snd (set_angles [Fin 0; Fin 0; Fin 0] [Fin 0; Fin 0] []
                       (POAV_.init bonds_pi3))))
  = (Raise IndexError,
     Inst_POAV (snd (set_angles [Fin 0; Fin 0; Fin 0] [Fin 0; Fin 0] []
                       (POAV_.init bonds_pi3)))).
Proof.
  now apply (todict_short_array_raises
               (Inst_POAV (snd (set_angles [Fin 0; Fin 0; Fin 0]
                                  [Fin 0; Fin 0] []
                                  (POAV_.init bonds_pi3)))) true).
Defined.

(** The arrays of an instance are all set to three elements or more, or one is
    unset, or all are set and one is short. *)
Lemma arrays_cases (self : POAV) :
  angles_set self = true \/ some_unset self = true \/ some_short self = true.
Proof.
  unfold angles_set, some_unset, some_short.
  destruct (POAV_.sigma_pi_angles self), (POAV_.pyramidalization_angles self),
    (POAV_.misalignment_angles self); auto.
  destruct ((3 <=? length l)%nat && (3 <=? length l0)%nat
            && (3 <=? length l1)%nat); auto.
Qed.

(** [todict] returns only when the three arrays are set to three elements or
    more. *)
Lemma todict_returns_inv (i i' : instance) (rad2deg : bool)
    (d : gmap string num) :
  todict rad2deg i = (Ok d, i') -> angles_set (base i) = true.
Proof.
  intros Hok. destruct (arrays_cases (base i)) as [H | [H | H]].
  - exact H.
  - destruct (POAV_todict_unset _ rad2deg H) as (e & Hraise & _).
    apply todict_raise in Hraise. congruence.
  - pose proof (todict_raise i rad2deg _ (POAV_todict_short _ rad2deg H)).
    congruence.
Qed.

(** X14.  For every instance (of any of the four classes) and both values of
    rad2deg, todict returns a mapping exactly when the three angle arrays are
    set to lists of at least three elements; the keys of a returned mapping
    are bond1..3, T, H, A and the nine angle keys, with m and n added by
    POAV1 and m, n1, n2, n3 added by POAV2, and no other key. *)
Theorem todict_returns_iff (i : instance) (rad2deg : bool) :
  (angles_set (base i) = true <->
   exists d : gmap string num, todict rad2deg i = (Ok d, i))
  /\ forall d : gmap string num,
       todict rad2deg i = (Ok d, i) ->
       dom d = (list_to_set (todict_keys i) : gset string).
Proof.
  assert (Hform : angles_set (base i) = true ->
            exists d : gmap string num,
              todict rad2deg i = (Ok d, i)
              /\ dom d = (list_to_set (todict_keys i) : gset string)).
  { intros Hset. apply angles_set_inv in Hset.
    destruct Hset as (s1 & s2 & s3 & s' & p1 & p2 & p3 & p' & m1 & m2 & m3
                      & m' & Hs & Hp & Hm).
    eexists. split.
    - apply (todict_ok rad2deg i _ _ _ _ _ _ _ _ _ _ _ _ Hs Hp Hm).
    - unfold dict_update, base_dict. rewrite dom_union_L, dom_list_to_map_L.
      destruct i; unfold extra_dict;
        rewrite ?dom_empty_L, ?dom_list_to_map_L; cbn; set_solver. }
  split.
  - split.
    + intros Hset. destruct (Hform Hset) as (d & Hd & _). now exists d.
    + intros (d & Hd). now apply (todict_returns_inv i i rad2deg d).
  - intros d Hd.
    destruct (Hform (todict_returns_inv i i rad2deg d Hd)) as (d' & Hd' & Hdom).
    congruence.
Qed.

Lemma todict_returns_iff_witness :
  exists d : gmap string num,
    todict false example_POAV1 = (Ok d, example_POAV1)
    /\ dom d = (list_to_set (todict_keys example_POAV1) : gset string).
Proof.
  destruct (proj1 (proj1 (todict_returns_iff example_POAV1 false)) eq_refl)
    as (d & Hd).
  exists d. split; [exact Hd |].
  now apply (proj2 (todict_returns_iff example_POAV1 false)).
Defined.

(** X15.  Whenever todict of a POAV1 instance returns, its entries m and n
    are the values the properties m and n return on that instance; whenever
    todict of a POAV2 instance returns, its entries m, n1, n2 and n3 are the
    values of the properties of these names. *)
Theorem todict_subclass_entries (rad2deg : bool) (d : gmap string num) :
  (forall p : POAV1,
     POAV1_.todict rad2deg p = (Ok d, p) ->
     exists m_ n_ : num,
       POAV1_.m p = (Ok m_, p) /\ POAV1_.n p = (Ok n_, p)
       /\ d !! "m" = Some m_ /\ d !! "n" = Some n_)
  /\ (forall p : POAV2,
        POAV2_.todict rad2deg p = (Ok d, p) ->
        d !! "m" = Some (POAV2_.m p) /\ d !! "n1" = Some (POAV2_.n1 p)
        /\ d !! "n2" = Some (POAV2_.n2 p) /\ d !! "n3" = Some (POAV2_.n3 p)).
Proof.
  split.
  - intros p Hd.
    assert (Hi : todict rad2deg (Inst_POAV1 p) = (Ok d, Inst_POAV1 p))
      by (unfold todict; now rewrite Hd).
    pose proof (todict_returns_inv _ _ _ _ Hi) as Hset.
    apply angles_set_inv in Hset.
    destruct Hset as (s1 & s2 & s3 & s' & p1 & p2 & p3 & p' & m1 & m2 & m3
                      & m' & Hs & Hp & Hm).
    rewrite (todict_ok rad2deg _ _ _ _ _ _ _ _ _ _ _ _ _ Hs Hp Hm) in Hi.
    injection Hi as <-. cbn [base] in Hs.
    exists (m_of_angles (s1 :: s2 :: s3 :: s')),
           (int 3 * m_of_angles (s1 :: s2 :: s3 :: s') + int 2)%num.
    split; [now apply POAV1_m_ok |]. split; [now apply POAV1_n_ok |].
    unfold dict_update, extra_dict. rewrite Hs. split; reflexivity.
  - intros p Hd.
    assert (Hi : todict rad2deg (Inst_POAV2 p) = (Ok d, Inst_POAV2 p))
      by (unfold todict; now rewrite Hd).
    pose proof (todict_returns_inv _ _ _ _ Hi) as Hset.
    apply angles_set_inv in Hset.
    destruct Hset as (s1 & s2 & s3 & s' & p1 & p2 & p3 & p' & m1 & m2 & m3
                      & m' & Hs & Hp & Hm).
    rewrite (todict_ok rad2deg _ _ _ _ _ _ _ _ _ _ _ _ _ Hs Hp Hm) in Hi.
    injection Hi as <-. repeat split.
Qed.

Lemma todict_subclass_entries_witness :
  exists (d : gmap string num) (m_ n_ : num),
    POAV1_.todict false
      (snd (POAV1_.super example_angles (POAV1_.init bonds_pi3)))
    = (Ok d, snd (POAV1_.super example_angles (POAV1_.init bonds_pi3)))
    /\ POAV1_.m (snd (POAV1_.super example_angles (POAV1_.init bonds_pi3)))
       = (Ok m_, snd (POAV1_.super example_angles (POAV1_.init bonds_pi3)))
    /\ d !! "m" = Some m_ /\ d !! "n" = Some n_.
Proof.
  assert (H : { d : gmap string num |
                POAV1_.todict false
                  (snd (POAV1_.super example_angles (POAV1_.init bonds_pi3)))
                = (Ok d, snd (POAV1_.super example_angles
                                (POAV1_.init bonds_pi3))) })
    by (eexists; reflexivity).
  destruct H as [d Hd].
  destruct (proj1 (todict_subclass_entries false d) _ Hd)
    as (m_ & n_ & Hm & _ & Hdm & Hdn).
  exists d, m_, n_.
  split; [exact Hd |]. split; [exact Hm |]. split; [exact Hdm | exact Hdn].
Defined.

(** ** Edge cases of [POAV1.m] *)

(** X16.  For every POAV1 instance whose sigma_pi_angles were set to the
    empty list, reading m or n raises nothing and returns nan (the mean of
    no number), while todict raises IndexError. *)
Theorem POAV1_m_of_empty_list (self : POAV1) (rad2deg : bool) :
  POAV_.sigma_pi_angles (POAV1_super self) = Some [] ->
  POAV1_.m self = (Ok NaN, self)
  /\ POAV1_.n self = (Ok NaN, self)
  /\ (POAV_.pyramidalization_angles (POAV1_super self) <> None ->
      POAV_.misalignment_angles (POAV1_super self) <> None ->
      POAV1_.todict rad2deg self = (Raise IndexError, self)).
Proof.
  intros Hs.
  assert (Hmean : m_of_angles [] = NaN).
  { unfold m_of_angles, np_mean, int. cbn [fold_left length INR].
    now rewrite ndiv_zero_zero. }
  split; [| split].
  - now rewrite (POAV1_m_ok _ _ Hs), Hmean.
  - now rewrite (POAV1_n_ok _ _ Hs), Hmean.
  - intros Hp Hm.
    assert (Hshort : some_short (base (Inst_POAV1 self)) = true).
    { unfold some_short. cbn [base]. rewrite Hs.
      destruct (POAV_.pyramidalization_angles (POAV1_super self));
        [| contradiction].
      destruct (POAV_.misalignment_angles (POAV1_super self));
        [| contradiction].
      reflexivity. }
    pose proof (todict_raise _ rad2deg _
                  (POAV_todict_short _ rad2deg Hshort)) as Hraise.
    unfold todict in Hraise.
    destruct (POAV1_.todict rad2deg self) as [r p'].
    now injection Hraise as -> ->.
Qed.

Lemma POAV1_m_of_empty_list_witness :
  POAV1_.m (snd (POAV1_.super (set_angles [] [] [])
                   (POAV1_.init bonds_pi3)))
  = (Ok NaN, snd (POAV1_.super (set_angles [] [] [])
                    (POAV1_.init bonds_pi3)))
  /\ POAV1_.todict true (snd (POAV1_.super (set_angles [] [] [])
                                (POAV1_.init bonds_pi3)))
     = (Raise IndexError,
        snd (POAV1_.super (set_angles [] [] []) (POAV1_.init bonds_pi3))).
Proof.
  split.
  - now apply (POAV1_m_of_empty_list
                 (snd (POAV1_.super (set_angles [] [] [])
                         (POAV1_.init bonds_pi3))) true).
  - now apply (POAV1_m_of_empty_list
                 (snd (POAV1_.super (set_angles [] [] [])
                         (POAV1_.init bonds_pi3))) true).
Defined.

Lemma ndiv_pos_by_zero (a b : R) :
  0 < a -> b = 0 -> (Fin a / Fin b)%num = PInf.
Proof. intros Ha ->. now apply ndiv_pos_zero. Qed.

(** X17.  For every POAV1 instance whose three sigma_pi_angles are real, when
    the squared cosine of their mean is 1/3 (the denominator of m is 0),
    reading m or n raises nothing and returns +infinity. *)
Theorem POAV1_m_pole (self : POAV1) (a b c : R) :
  POAV_.sigma_pi_angles (POAV1_super self) = Some [Fin a; Fin b; Fin c] ->
  3 * (cos ((a + b + c) / 3) * cos ((a + b + c) / 3)) = 1 ->
  POAV1_.m self = (Ok PInf, self) /\ POAV1_.n self = (Ok PInf, self).
Proof.
  intros Hs Hpole.
  assert (Hm : m_of_angles [Fin a; Fin b; Fin c] = PInf).
  { unfold m_of_angles. rewrite np_mean_3. unfold int. cbn [nadd].
    rewrite ndiv_fin by lra. cbn [ncos nmul nsub nadd nneg].
    apply ndiv_pos_by_zero; lra. }
  split.
  - now rewrite (POAV1_m_ok _ _ Hs), Hm.
  - rewrite (POAV1_n_ok _ _ Hs), Hm. unfold int. cbn [nmul].
    now rewrite Rsign_pos by lra.
Qed.

Lemma cos_pole_angle : 3 * (cos pole_angle * cos pole_angle) = 1.
Proof.
  unfold pole_angle.
  assert (Hsq : sqrt (1 / 3) * sqrt (1 / 3) = 1 / 3) by (apply sqrt_sqrt; lra).
  assert (H0 : 0 <= sqrt (1 / 3)) by apply sqrt_pos.
  rewrite cos_acos by nra. lra.
Qed.

Lemma POAV1_m_pole_witness :
  POAV1_.m (snd (POAV1_.super
                   (POAV_.set_sigma_pi_angles
                      (PyList [Fin pole_angle; Fin pole_angle; Fin pole_angle]))
                   (POAV1_.init bonds_pi3)))
  = (Ok PInf,
     snd (POAV1_.super
            (POAV_.set_sigma_pi_angles
               (PyList [Fin pole_angle; Fin pole_angle; Fin pole_angle]))
            (POAV1_.init bonds_pi3))).
Proof.
  apply (POAV1_m_pole _ pole_angle pole_angle pole_angle); [reflexivity |].
  replace ((pole_angle + pole_angle + pole_angle) / 3) with pole_angle
    by field.
  apply cos_pole_angle.
Defined.

(** ** The slots of an atom, once assigned *)

(** X18.  For every atom and every instance of the class of a slot:
    assigning it to the slot succeeds, the getter of the slot then returns
    that instance, the other two slots keep their values, and a slot that
    holds an instance can be assigned another one. *)
Theorem slots_round_trip (self : POAVAtom)
    (p1 q1 : POAV1) (p2 q2 : POAV2) (pr qr : POAVR) :
  let s1 := snd (POAVAtom_.set_POAV1 (ObjInstance (Inst_POAV1 p1)) self) in
  let s2 := snd (POAVAtom_.set_POAV2 (ObjInstance (Inst_POAV2 p2)) self) in
  let sr := snd (POAVAtom_.set_POAVR (ObjInstance (Inst_POAVR pr)) self) in
  (POAVAtom_.set_POAV1 (ObjInstance (Inst_POAV1 p1)) self = (Ok tt, s1)
   /\ POAVAtom_.get_POAV1 s1 = (Ok (ObjInstance (Inst_POAV1 p1)), s1)
   /\ POAVAtom_.get_POAV2 s1 = (Ok (_POAV2 self), s1)
   /\ POAVAtom_.get_POAVR s1 = (Ok (_POAVR self), s1)
   /\ fst (POAVAtom_.get_POAV1
             (snd (POAVAtom_.set_POAV1 (ObjInstance (Inst_POAV1 q1)) s1)))
      = Ok (ObjInstance (Inst_POAV1 q1)))
  /\ (POAVAtom_.set_POAV2 (ObjInstance (Inst_POAV2 p2)) self = (Ok tt, s2)
      /\ POAVAtom_.get_POAV2 s2 = (Ok (ObjInstance (Inst_POAV2 p2)), s2)
      /\ POAVAtom_.get_POAV1 s2 = (Ok (_POAV1 self), s2)
      /\ POAVAtom_.get_POAVR s2 = (Ok (_POAVR self), s2)
      /\ fst (POAVAtom_.get_POAV2
                (snd (POAVAtom_.set_POAV2 (ObjInstance (Inst_POAV2 q2)) s2)))
         = Ok (ObjInstance (Inst_POAV2 q2)))
  /\ (POAVAtom_.set_POAVR (ObjInstance (Inst_POAVR pr)) self = (Ok tt, sr)
      /\ POAVAtom_.get_POAVR sr = (Ok (ObjInstance (Inst_POAVR pr)), sr)
      /\ POAVAtom_.get_POAV1 sr = (Ok (_POAV1 self), sr)
      /\ POAVAtom_.get_POAV2 sr = (Ok (_POAV2 self), sr)
      /\ fst (POAVAtom_.get_POAVR
                (snd (POAVAtom_.set_POAVR (ObjInstance (Inst_POAVR qr)) sr)))
         = Ok (ObjInstance (Inst_POAVR qr))).
Proof. cbv zeta. repeat split. Qed.

(** ** The order of the bonds *)



